(** * ReliefConnect: the team builder (src/components/TeamBuilder.tsx)

    A shallow embedding of the state logic of the [TeamBuilder] React
    component: its [useState] cells, its event handlers, the create-team
    request and the skill-coverage computation, followed by the properties
    the specification states about them. *)

From HB Require Import structures.
From Stdlib Require Import String Ascii.
From mathcomp Require Import ssreflect ssrfun ssrbool eqtype ssrnat seq.

Set Implicit Arguments.
Unset Strict Implicit.
Unset Printing Implicit Defensive.

(** ** JavaScript strings

    A string is a sequence of code units; [ascii] carries the code units
    below 256 (Latin-1).  Identifiers are compared with [===], which on
    strings is equality of the code-unit sequences.  Text with a code unit
    from U+0100 on is outside this type: on such text [trim] strips
    further white-space characters and [toLowerCase] is not a map of
    single code units, so [Js.trim] and [Js.toLowerCase] below describe
    the two methods on Latin-1 text only. *)

HB.instance Definition _ := hasDecEq.Build string String.eqb_spec.

Module Js.

(** White space and line terminators below U+0100, the characters
    [String.prototype.trim] strips: TAB, LF, VT, FF, CR, SP and NBSP. *)
Definition is_whitespace (c : ascii) : bool :=
  nat_of_ascii c \in [:: 9; 10; 11; 12; 13; 32; 160].

Fixpoint trimStart (s : string) : string :=
  if s is String c s' then
    if is_whitespace c then trimStart s' else s
  else EmptyString.

Definition reverse (s : string) : string :=
  string_of_list_ascii (rev (list_ascii_of_string s)).

Definition trimEnd (s : string) : string := reverse (trimStart (reverse s)).

(** [s.trim()] *)
Definition trim (s : string) : string := trimEnd (trimStart s).

(** Default case conversion of one code unit below U+0100: A-Z and the
    Latin-1 capitals U+00C0-U+00DE (without the multiplication sign U+00D7)
    move up by 32. *)
Definition lower_char (c : ascii) : ascii :=
  let n := nat_of_ascii c in
  if ((65 <= n) && (n <= 90)) || ((192 <= n) && (n <= 222) && (n != 215))
  then ascii_of_nat (n + 32) else c.

(** [s.toLowerCase()] *)
Fixpoint toLowerCase (s : string) : string :=
  if s is String c s' then String (lower_char c) (toLowerCase s')
  else EmptyString.

(** [hay.includes(needle)] on strings: substring search. *)
Fixpoint str_includes (hay needle : string) : bool :=
  String.prefix needle hay ||
  (if hay is String _ hay' then str_includes hay' needle else false).

(** Truthiness of a string: only the empty string is falsy. *)
Definition truthy (s : string) : bool := s != EmptyString.

(** Truthiness of a [string | null]. *)
Definition otruthy (o : option string) : bool :=
  if o is Some s then truthy s else false.

(** Exceptions and the completion of an evaluation. *)
Inductive exn : Type := TypeError.

Inductive result (A : Type) : Type :=
| Ok of A
| Throw of exn.

Arguments Throw {A} _.

Definition bind {A B} (m : result A) (k : A -> result B) : result B :=
  match m with
  | Ok a => k a
  | Throw e => Throw e
  end.

(** [receiver.includes(x)] on an array of strings: the member access is a
    TypeError when the receiver is [undefined] or [null]. *)
Definition call_includes (x : string) (receiver : option (seq string))
  : result bool :=
  if receiver is Some a then Ok (x \in a) else Throw TypeError.

(** [receiver?.m(...)]: [undefined] when the receiver is nullish, without
    evaluating the call. *)
Definition opt_chain {A B} (receiver : option A)
    (call : option A -> result B) : result (option B) :=
  if receiver is Some _ then bind (call receiver) (fun b => Ok (Some b))
  else Ok None.

(** ToBoolean of a [boolean | undefined]. *)
Definition to_boolean (o : option bool) : bool :=
  if o is Some b then b else false.

(** [a.some(p)]: stops at the first element whose test is truthy; an
    exception of the callback propagates. *)
Fixpoint some {A} (p : A -> result bool) (a : seq A) : result bool :=
  if a is x :: a' then
    bind (p x) (fun b => if b then Ok true else some p a')
  else Ok false.

(** [a.forEach(f)] where [f] updates the variables it closes over, here
    threaded as [st]. *)
Fixpoint forEach {A S} (f : A -> S -> result S) (a : seq A) (st : S)
  : result S :=
  if a is x :: a' then bind (f x st) (forEach f a') else Ok st.

End Js.

Notation "m >>= k" := (Js.bind m k) (at level 58, left associativity).

Import Js (result, Ok, Throw).

(** ** Data model *)

(** A row of the [volunteers] table as the component reads it: [skills] is
    optional ([skills?: string[]], a nullable column), [email] is
    optional. *)
Module Volunteer.
Record t : Type := Build {
  id : string;
  name : string;
  email : option string;
  skills : option (seq string)
}.
End Volunteer.

Abbreviation Volunteer := Volunteer.t.

(** A row of the [skills] table. *)
Module Skill.
Record t : Type := Build {
  id : string;
  name : string;
  category : string
}.
End Skill.

Abbreviation Skill := Skill.t.

(** The component's props. [onTeamCreated] records whether the optional
    callback was passed. *)
Record TeamBuilderProps : Type := {
  incidentId : option string;
  onTeamCreated : bool
}.

(** The [useState] cells of the component, in declaration order. *)
Record State : Type := mkState {
  volunteers : seq Volunteer;
  filteredVolunteers : seq Volunteer;
  selectedVolunteers : seq Volunteer;
  skills : seq Skill;
  teamName : string;
  teamDescription : string;
  leaderId : option string;
  requiredSkills : seq string;
  location : string;
  loading : bool;
  saving : bool;
  searchTerm : string;
  filterSkill : string
}.

(** The initial values passed to [useState]. *)
Definition initialState : State :=
  {| volunteers := [::]; filteredVolunteers := [::];
     selectedVolunteers := [::]; skills := [::];
     teamName := EmptyString; teamDescription := EmptyString;
     leaderId := None; requiredSkills := [::]; location := EmptyString;
     loading := true; saving := false;
     searchTerm := EmptyString; filterSkill := EmptyString |}.

(** The state setters returned by [useState]. *)
Section Setters.
Variable s : State.

Definition setVolunteers x :=
  mkState x (filteredVolunteers s) (selectedVolunteers s) (skills s)
    (teamName s) (teamDescription s) (leaderId s) (requiredSkills s)
    (location s) (loading s) (saving s) (searchTerm s) (filterSkill s).
Definition setFilteredVolunteers x :=
  mkState (volunteers s) x (selectedVolunteers s) (skills s)
    (teamName s) (teamDescription s) (leaderId s) (requiredSkills s)
    (location s) (loading s) (saving s) (searchTerm s) (filterSkill s).
Definition setSelectedVolunteers x :=
  mkState (volunteers s) (filteredVolunteers s) x (skills s)
    (teamName s) (teamDescription s) (leaderId s) (requiredSkills s)
    (location s) (loading s) (saving s) (searchTerm s) (filterSkill s).
Definition setSkills x :=
  mkState (volunteers s) (filteredVolunteers s) (selectedVolunteers s) x
    (teamName s) (teamDescription s) (leaderId s) (requiredSkills s)
    (location s) (loading s) (saving s) (searchTerm s) (filterSkill s).
Definition setTeamName x :=
  mkState (volunteers s) (filteredVolunteers s) (selectedVolunteers s)
    (skills s) x (teamDescription s) (leaderId s) (requiredSkills s)
    (location s) (loading s) (saving s) (searchTerm s) (filterSkill s).
Definition setTeamDescription x :=
  mkState (volunteers s) (filteredVolunteers s) (selectedVolunteers s)
    (skills s) (teamName s) x (leaderId s) (requiredSkills s)
    (location s) (loading s) (saving s) (searchTerm s) (filterSkill s).
Definition setLeaderId x :=
  mkState (volunteers s) (filteredVolunteers s) (selectedVolunteers s)
    (skills s) (teamName s) (teamDescription s) x (requiredSkills s)
    (location s) (loading s) (saving s) (searchTerm s) (filterSkill s).
Definition setRequiredSkills x :=
  mkState (volunteers s) (filteredVolunteers s) (selectedVolunteers s)
    (skills s) (teamName s) (teamDescription s) (leaderId s) x
    (location s) (loading s) (saving s) (searchTerm s) (filterSkill s).
Definition setLocation x :=
  mkState (volunteers s) (filteredVolunteers s) (selectedVolunteers s)
    (skills s) (teamName s) (teamDescription s) (leaderId s)
    (requiredSkills s) x (loading s) (saving s) (searchTerm s)
    (filterSkill s).
Definition setLoading x :=
  mkState (volunteers s) (filteredVolunteers s) (selectedVolunteers s)
    (skills s) (teamName s) (teamDescription s) (leaderId s)
    (requiredSkills s) (location s) x (saving s) (searchTerm s)
    (filterSkill s).
Definition setSaving x :=
  mkState (volunteers s) (filteredVolunteers s) (selectedVolunteers s)
    (skills s) (teamName s) (teamDescription s) (leaderId s)
    (requiredSkills s) (location s) (loading s) x (searchTerm s)
    (filterSkill s).
Definition setSearchTerm x :=
  mkState (volunteers s) (filteredVolunteers s) (selectedVolunteers s)
    (skills s) (teamName s) (teamDescription s) (leaderId s)
    (requiredSkills s) (location s) (loading s) (saving s) x
    (filterSkill s).
Definition setFilterSkill x :=
  mkState (volunteers s) (filteredVolunteers s) (selectedVolunteers s)
    (skills s) (teamName s) (teamDescription s) (leaderId s)
    (requiredSkills s) (location s) (loading s) (saving s) (searchTerm s)
    x.

End Setters.

(** The ids of the selected volunteers,
    [selectedVolunteers.map(v => v.id)]. *)
Definition memberIds (s : State) : seq string :=
  [seq Volunteer.id v | v <- selectedVolunteers s].

(** ** Skill coverage *)

Record SkillCoverage : Type := {
  covered : seq string;
  missing : seq string
}.

(** The callback of [selectedVolunteers.some]:
    [v => v.skills?.includes(skillId)], its result taken as a boolean. *)
Definition holdsSkill (skillId : string) (v : Volunteer) : result bool :=
  Js.opt_chain (Volunteer.skills v) (Js.call_includes skillId) >>= fun r =>
  Ok (Js.to_boolean r).

(** [calculateSkillCoverage], a closure over [requiredSkills] and
    [selectedVolunteers]; the two local arrays are the accumulator, and
    [push] appends at the end. *)
Definition calculateSkillCoverage (s : State) : result SkillCoverage :=
  Js.forEach
    (fun skillId acc =>
       Js.some (holdsSkill skillId) (selectedVolunteers s)
       >>= fun isSkillCovered =>
       if isSkillCovered
       then Ok {| covered := rcons (covered acc) skillId;
                  missing := missing acc |}
       else Ok {| covered := covered acc;
                  missing := rcons (missing acc) skillId |})
    (requiredSkills s)
    {| covered := [::]; missing := [::] |}.

(** ** Event handlers *)

(** [a.find(p)]: the first element that passes the test, or
    [undefined]. *)
Fixpoint find_first {A} (p : A -> bool) (a : seq A) : option A :=
  if a is x :: a' then if p x then Some x else find_first p a' else None.

(** [handleSelectVolunteer]. An object is truthy, so the negated [find] is
    true exactly when no element was found. *)
Definition handleSelectVolunteer (volunteer : Volunteer) (s : State) : State :=
  if ~~ isSome (find_first (fun v => Volunteer.id v == Volunteer.id volunteer)
                  (selectedVolunteers s))
  then setSelectedVolunteers s (rcons (selectedVolunteers s) volunteer)
  else s.

(** [handleRemoveVolunteer]. Both setters are applied to the cells of the
    render the handler closes over. *)
Definition handleRemoveVolunteer (volunteerId : string) (s : State) : State :=
  let s1 :=
    setSelectedVolunteers s
      [seq v <- selectedVolunteers s | Volunteer.id v != volunteerId] in
  if leaderId s == Some volunteerId then setLeaderId s1 None else s1.

(** [handleSetLeader]. *)
Definition handleSetLeader (volunteerId : string) (s : State) : State :=
  setLeaderId s (Some volunteerId).

(** [handleToggleSkill]. *)
Definition handleToggleSkill (skillId : string) (s : State) : State :=
  if skillId \in requiredSkills s
  then setRequiredSkills s [seq id <- requiredSkills s | id != skillId]
  else setRequiredSkills s (rcons (requiredSkills s) skillId).

(** What a handler does to the outside: toasts, the console, the request
    to the data store, the parent's callback. *)
Record TeamInsert : Type := {
  ins_name : string;
  ins_description : string;
  ins_leader_id : option string;
  ins_members : seq string;
  ins_skills_required : seq string;
  ins_active : bool;
  ins_incident_id : option string;
  ins_location : option string
}.

Inductive Effect : Type :=
| ToastError of string
| ToastSuccess of string
| ConsoleError of string
| InsertTeam of TeamInsert
| CallOnTeamCreated of string.

Definition is_insert (e : Effect) : bool :=
  if e is InsertTeam _ then true else false.

(** [validateTeam]: the first failing test raises its toast and answers
    [false]. *)
Definition validateTeam (s : State) : bool * seq Effect :=
  if ~~ Js.truthy (Js.trim (teamName s)) then
    (false, [:: ToastError "Team name is required"])
  else if size (selectedVolunteers s) == 0 then
    (false, [:: ToastError "Please select at least one volunteer"])
  else if ~~ Js.otruthy (leaderId s) then
    (false, [:: ToastError "Please designate a team leader"])
  else (true, [::]).

(** [x || null] for a string that may be absent. *)
Definition or_null (o : option string) : option string :=
  if Js.otruthy o then o else None.

(** The row handed to [supabase.from('teams').insert]. *)
Definition teamRow (p : TeamBuilderProps) (s : State) : TeamInsert :=
  {| ins_name := teamName s;
     ins_description := teamDescription s;
     ins_leader_id := leaderId s;
     ins_members := memberIds s;
     ins_skills_required := requiredSkills s;
     ins_active := true;
     ins_incident_id := or_null (incidentId p);
     ins_location := or_null (Some (location s)) |}.

(** [handleCreateTeam] up to its [await]: validation, [setSaving(true)]
    and the insert request built from the cells of the current render. *)
Definition handleCreateTeam (p : TeamBuilderProps) (s : State)
  : State * seq Effect :=
  let: (valid, toasts) := validateTeam s in
  if ~~ valid then (s, toasts)
  else (setSaving s true, toasts ++ [:: InsertTeam (teamRow p s)]).

(** The answer of the data store to the insert: [{ data, error }], of
    which the handler reads the error, the number of rows and the id of
    the first row. *)
Record InsertResponse : Type := {
  teamData : option (seq string);
  teamError : bool
}.

(** The form reset after a successful insert. *)
Definition resetForm (s : State) : State :=
  setLocation
    (setRequiredSkills
       (setSelectedVolunteers
          (setLeaderId
             (setTeamDescription (setTeamName s EmptyString) EmptyString)
             None)
          [::])
       [::])
    EmptyString.

(** [handleCreateTeam] after its [await]: the [try] body from the
    destructuring on, the [catch] and the [finally]. *)
Definition handleCreateTeam_resume (p : TeamBuilderProps)
    (r : InsertResponse) (s : State) : State * seq Effect :=
  if teamError r then
    (setSaving s false,
     [:: ConsoleError "Error creating team:";
         ToastError "Failed to create team"])
  else
    match teamData r with
    | Some (teamId :: _) =>
        (setSaving (resetForm s) false,
         ToastSuccess "Team created successfully!" ::
         (if onTeamCreated p then [:: CallOnTeamCreated teamId] else [::]))
    | _ => (setSaving s false, [::])
    end.

(** The volunteer filter of the second [useEffect]. *)
Definition matchesSearch (lowerSearch : string) (vol : Volunteer) : bool :=
  Js.str_includes (Js.toLowerCase (Volunteer.name vol)) lowerSearch ||
  (if Volunteer.email vol is Some e
   then Js.str_includes (Js.toLowerCase e) lowerSearch else false).

Definition hasFilterSkill (skill : string) (vol : Volunteer) : bool :=
  if Volunteer.skills vol is Some a then skill \in a else false.

Definition filterEffect (s : State) : State :=
  let results := volunteers s in
  let results :=
    if Js.truthy (searchTerm s)
    then [seq vol <- results | matchesSearch (Js.toLowerCase (searchTerm s)) vol]
    else results in
  let results :=
    if Js.truthy (filterSkill s)
    then [seq vol <- results | hasFilterSkill (filterSkill s) vol]
    else results in
  setFilteredVolunteers s results.

(** The answer of the data store to the two reads of the first
    [useEffect]. *)
Record FetchResponse : Type := {
  volunteersData : option (seq Volunteer);
  volunteersError : bool;
  skillsData : option (seq Skill);
  skillsError : bool
}.

(** [data || []] *)
Definition or_empty {A} (o : option (seq A)) : seq A :=
  if o is Some a then a else [::].

(** [fetchData] after its reads have settled, then the filter effect that
    the new [volunteers] triggers. *)
Definition fetchData_resume (r : FetchResponse) (s : State)
  : State * seq Effect :=
  if volunteersError r || skillsError r then
    (setLoading s false,
     [:: ConsoleError "Error fetching data:";
         ToastError "Failed to load volunteers and skills data"])
  else
    let s1 := setVolunteers s (or_empty (volunteersData r)) in
    let s2 := setFilteredVolunteers s1 (or_empty (volunteersData r)) in
    let s3 := setSkills s2 (or_empty (skillsData r)) in
    (filterEffect (setLoading s3 false), [::]).

(** ** The component as a transition system

    One event per handler the rendered tree installs, and one per answer
    of the data store to a pending request. *)
Inductive Event : Type :=
| FetchSettled of FetchResponse
| ChangeTeamName of string
| ChangeTeamDescription of string
| ChangeLocation of string
| ChangeSearchTerm of string
| ChangeFilterSkill of string
| ClickAddToTeam of Volunteer
| ClickRemove of string
| ClickSetLeader of string
| ToggleSkill of string
| ClickCreateTeam
| InsertSettled of InsertResponse.

(** The effect of one event on the cells. A change of [searchTerm] or
    [filterSkill] re-runs the filter effect. *)
Definition step (p : TeamBuilderProps) (s : State) (e : Event)
  : State * seq Effect :=
  match e with
  | FetchSettled r => fetchData_resume r s
  | ChangeTeamName x => (setTeamName s x, [::])
  | ChangeTeamDescription x => (setTeamDescription s x, [::])
  | ChangeLocation x => (setLocation s x, [::])
  | ChangeSearchTerm x => (filterEffect (setSearchTerm s x), [::])
  | ChangeFilterSkill x => (filterEffect (setFilterSkill s x), [::])
  | ClickAddToTeam v => (handleSelectVolunteer v s, [::])
  | ClickRemove id => (handleRemoveVolunteer id s, [::])
  | ClickSetLeader id => (handleSetLeader id s, [::])
  | ToggleSkill id => (handleToggleSkill id s, [::])
  | ClickCreateTeam => handleCreateTeam p s
  | InsertSettled r => handleCreateTeam_resume p r s
  end.

(** The award button that calls [handleSetLeader] is rendered by
    [renderVolunteerList(selectedVolunteers, true)], once per selected
    volunteer and with that volunteer's id: the rendered tree offers
    [ClickSetLeader id] only for the ids of selected volunteers. *)
Definition leaderFromSelection (s : State) (e : Event) : bool :=
  if e is ClickSetLeader id then id \in memberIds s else true.

(** No restriction on the events at all. *)
Definition anyEvent (s : State) (e : Event) : bool := true.

(** The states reached from the initial render by events that pass
    [guard]. *)
Inductive reachable (p : TeamBuilderProps) (guard : State -> Event -> bool)
  : State -> Prop :=
| reach_init : reachable p guard initialState
| reach_step s e :
    reachable p guard s -> guard s e -> reachable p guard (step p s e).1.

(** The run of a list of events from the initial render. *)
Definition run (p : TeamBuilderProps) (es : seq Event) : State :=
  foldl (fun s e => (step p s e).1) initialState es.

(** The guards hold along the run of [es] from [s]. *)
Fixpoint allowed (p : TeamBuilderProps) (guard : State -> Event -> bool)
    (s : State) (es : seq Event) : bool :=
  if es is e :: es' then guard s e && allowed p guard (step p s e).1 es'
  else true.

(** The invariants of the selection. *)
Definition leaderIsMember (s : State) : bool :=
  if leaderId s is Some l then l \in memberIds s else true.

Definition membersDistinct (s : State) : bool := uniq (memberIds s).

(** The coverage test as a predicate on skill ids: some selected volunteer
    lists the skill. *)
Definition isCovered (M : seq Volunteer) (skillId : string) : bool :=
  has (hasFilterSkill skillId) M.

(** "A leader is designated and present in the members". *)
Definition leaderDesignated (s : State) : bool :=
  if leaderId s is Some l then l \in memberIds s else false.

(** ** Rendering

    The parts of the rendered tree that are computed from the cells. *)

(** [getSkillName]: the name of the first catalogue entry with that id;
    the fallback also replaces an empty name ([skill?.name || ...]). *)
Definition getSkillName (s : State) (skillId : string) : string :=
  let skill := find_first (fun sk => Skill.id sk == skillId) (skills s) in
  let name := omap Skill.name skill in
  if name is Some n then
    if Js.truthy n then n else "Unknown Skill"%string
  else "Unknown Skill"%string.

(** The skill badges of one row of [renderVolunteerList]: the names of the
    first three skills ([slice(0, 3)]), and the [+n] badge when there are
    more than three. Nothing is rendered when [skills] is absent or
    empty. *)
Definition skillBadges (s : State) (volunteer : Volunteer)
  : seq string * option nat :=
  if Volunteer.skills volunteer is Some a then
    if 0 < size a then
      ([seq getSkillName s skillId | skillId <- take 3 a],
       if 3 < size a then Some (size a - 3) else None)
    else ([::], None)
  else ([::], None).

(** The [disabled] attribute of the "Add to team" button of a row. *)
Definition addDisabled (s : State) (volunteer : Volunteer) : bool :=
  has (fun v => Volunteer.id v == Volunteer.id volunteer)
    (selectedVolunteers s).





(** ** Requests in flight

    The run of a list of events with the number of insert requests that
    have been sent and not answered. The "Create Team" button carries
    [disabled={saving}], so its click is impossible while [saving]; an
    answer of the store needs a request in flight. An impossible event
    ends the run with [None]. *)
Fixpoint flights (p : TeamBuilderProps) (s : State) (n : nat)
    (es : seq Event) : option (State * nat) :=
  if es is e :: es' then
    let: (s', effects) := step p s e in
    match e with
    | ClickCreateTeam =>
        if saving s then None
        else flights p s' (n + count is_insert effects) es'
    | InsertSettled _ =>
        if n is n'.+1 then flights p s' n' es' else None
    | _ => flights p s' n es'
    end
  else Some (s, n).

(** All the effects raised along a run, in order. *)
Fixpoint effectsOf (p : TeamBuilderProps) (s : State) (es : seq Event)
  : seq Effect :=
  if es is e :: es' then (step p s e).2 ++ effectsOf p (step p s e).1 es'
  else [::].

(** The characters of a string. *)
Definition chars (s : string) : seq ascii := list_ascii_of_string s.

(** A row sent to the store is well formed: a name with a character that
    is not white space, at least one member, pairwise distinct members and
    required skills, and a leader among the members. *)
Definition wellFormedRow (row : TeamInsert) : bool :=
  [&& ~~ all Js.is_whitespace (chars (ins_name row)),
      0 < size (ins_members row),
      uniq (ins_members row),
      uniq (ins_skills_required row),
      (if ins_leader_id row is Some l then l \in ins_members row else false),
      ins_active row,
      ins_incident_id row != Some EmptyString
    & ins_location row != Some EmptyString].

Definition wellFormedEffect (e : Effect) : bool :=
  if e is InsertTeam row then wellFormedRow row else true.

(** ** Sample data

    Two volunteers, the answer of the store that delivers them, and a few
    runs of the component. *)
Definition vol1 : Volunteer :=
  Volunteer.Build "v1" "Ada" (Some "ada@example.org"%string)
    (Some [:: "First Aid"%string]).

Definition vol2 : Volunteer :=
  Volunteer.Build "v2" "Bo" None (Some [:: "Driving"; "CPR"]%string).

Definition sampleProps : TeamBuilderProps :=
  {| incidentId := None; onTeamCreated := true |}.

Definition sampleState : State :=
  mkState [:: vol1; vol2] [:: vol1; vol2] [::] [::]
    "Alpha" EmptyString None [:: "First Aid"; "Driving"]%string EmptyString
    false false EmptyString EmptyString.


Definition fetched : Event :=
  FetchSettled {| volunteersData := Some [:: vol1; vol2];
                  volunteersError := false;
                  skillsData :=
                    Some [:: Skill.Build "First Aid" "First Aid" "medical";
                             Skill.Build "Driving" "Driving" "logistics"];
                  skillsError := false |}.

(** Name "Alpha", members v1 and v2, no leader. *)
Definition leaderlessRun : seq Event :=
  [:: fetched; ClickAddToTeam vol1; ClickAddToTeam vol2;
      ChangeTeamName "Alpha"].

(** The same with v2 made leader. *)
Definition completeRun : seq Event :=
  leaderlessRun ++ [:: ClickSetLeader "v2"].

(** The leader v1 is removed from the team. *)
Definition leaderRemovedRun : seq Event :=
  [:: fetched; ClickAddToTeam vol1; ClickAddToTeam vol2;
      ClickSetLeader "v1"; ClickRemove "v1"].

(** v1 is added twice. *)
Definition addedTwiceRun : seq Event :=
  [:: fetched; ClickAddToTeam vol1; ClickAddToTeam vol2;
      ClickAddToTeam vol1].

(** * Properties *)

(** ** Skill coverage *)

Section Coverage.

Variable M : seq Volunteer.

Lemma holdsSkillE skillId v :
  holdsSkill skillId v = Ok (hasFilterSkill skillId v).
Proof. by rewrite /holdsSkill /hasFilterSkill; case: (Volunteer.skills v). Qed.

Lemma some_holdsSkill skillId :
  Js.some (holdsSkill skillId) M = Ok (isCovered M skillId).
Proof.
rewrite /isCovered; elim: M => [|v M' IH] //=.
by rewrite holdsSkillE /=; case: (hasFilterSkill skillId v).
Qed.

(** The loop, from any value of the two local arrays. *)
Lemma forEach_coverage R acc :
  Js.forEach
    (fun skillId acc =>
       Js.some (holdsSkill skillId) M >>= fun isSkillCovered =>
       if isSkillCovered
       then Ok {| covered := rcons (covered acc) skillId;
                  missing := missing acc |}
       else Ok {| covered := covered acc;
                  missing := rcons (missing acc) skillId |})
    R acc
  = Ok {| covered := covered acc ++ [seq x <- R | isCovered M x];
          missing := missing acc ++ [seq x <- R | ~~ isCovered M x] |}.
Proof.
elim: R acc => [|x R IH] [c m] /=; first by rewrite !cats0.
rewrite some_holdsSkill /=.
by case: (isCovered M x) => /=; rewrite IH /= ?cat_rcons.
Qed.

End Coverage.

(** [calculateSkillCoverage] returns the two filters of the required
    skills, in the order of the required skills. *)
Lemma calculateSkillCoverageE s :
  calculateSkillCoverage s =
  Ok {| covered :=
          [seq x <- requiredSkills s | isCovered (selectedVolunteers s) x];
        missing :=
          [seq x <- requiredSkills s | ~~ isCovered (selectedVolunteers s) x]
     |}.
Proof. by rewrite /calculateSkillCoverage forEach_coverage. Qed.

(** C1. For every required-skill list and every member list (the two cells
    of an arbitrary state), [calculateSkillCoverage] returns a pair whose
    union is exactly the required skills and whose intersection is empty:
    each required id is in exactly one of [covered] and [missing], no other
    id is in either; as lists, [covered ++ missing] is a permutation of the
    required skills. *)
Theorem coverage_partition (s : State) :
  exists c, [/\ calculateSkillCoverage s = Ok c,
    forall x, (x \in covered c) || (x \in missing c)
              = (x \in requiredSkills s),
    forall x, (x \in covered c) && (x \in missing c) = false
    & perm_eq (covered c ++ missing c) (requiredSkills s)].
Proof.
eexists; split; first exact: calculateSkillCoverageE.
- move=> x /=; rewrite !mem_filter -andb_orl.
  by case: (isCovered _ x).
- move=> x /=; rewrite !mem_filter.
  by case: (isCovered _ x); rewrite ?andbF.
- by rewrite /= perm_filterC.
Qed.


(** C4. With no volunteer selected, every required skill is missing and
    none is covered. *)
Theorem coverage_no_members (s : State) :
  selectedVolunteers s = [::] ->
  calculateSkillCoverage s =
  Ok {| covered := [::]; missing := requiredSkills s |}.
Proof.
move=> M0; rewrite calculateSkillCoverageE M0 /=.
by rewrite filter_pred0 filter_predT.
Qed.

Lemma coverage_no_members_witness :
  selectedVolunteers sampleState = [::] /\
  calculateSkillCoverage sampleState =
  Ok {| covered := [::]; missing := [:: "First Aid"; "Driving"]%string |}.
Proof. split; [reflexivity | exact: (@coverage_no_members sampleState)]. Defined.

(** C5. With no required skill, both [covered] and [missing] are empty,
    whoever is selected. *)
Theorem coverage_no_required (s : State) :
  requiredSkills s = [::] ->
  calculateSkillCoverage s = Ok {| covered := [::]; missing := [::] |}.
Proof. by move=> R0; rewrite calculateSkillCoverageE R0. Qed.

Lemma coverage_no_required_witness :
  requiredSkills (setSelectedVolunteers initialState [:: vol1; vol2]) = [::] /\
  calculateSkillCoverage (setSelectedVolunteers initialState [:: vol1; vol2])
  = Ok {| covered := [::]; missing := [::] |}.
Proof.
split; first reflexivity.
exact: (@coverage_no_required (setSelectedVolunteers initialState [:: vol1; vol2])).
Defined.

(** C6. The two scenarios of the specification, for members of any id,
    name and email and any value of the other cells: required
    "First Aid" and "Driving" with members holding ["First Aid"] and
    ["Driving", "CPR"] gives both covered and nothing missing; required
    "Translation" with one member holding ["First Aid"] gives nothing
    covered and "Translation" missing. *)
Theorem coverage_scenarios (s : State) (i1 n1 i2 n2 : string)
    (e1 e2 : option string) :
  calculateSkillCoverage
    (setSelectedVolunteers
       (setRequiredSkills s [:: "First Aid"; "Driving"]%string)
       [:: Volunteer.Build i1 n1 e1 (Some [:: "First Aid"%string]);
           Volunteer.Build i2 n2 e2 (Some [:: "Driving"; "CPR"]%string)])
  = Ok {| covered := [:: "First Aid"; "Driving"]%string; missing := [::] |}
  /\
  calculateSkillCoverage
    (setSelectedVolunteers
       (setRequiredSkills s [:: "Translation"%string])
       [:: Volunteer.Build i1 n1 e1 (Some [:: "First Aid"%string])])
  = Ok {| covered := [::]; missing := [:: "Translation"%string] |}.
Proof. by split; vm_compute. Qed.

(** C7. The result of [calculateSkillCoverage] is a function of the
    required skills and the selected volunteers alone: two states that
    agree on these two cells give the same result, whatever their other
    cells hold. *)
Theorem coverage_deterministic (s1 s2 : State) :
  requiredSkills s1 = requiredSkills s2 ->
  selectedVolunteers s1 = selectedVolunteers s2 ->
  calculateSkillCoverage s1 = calculateSkillCoverage s2.
Proof. by rewrite /calculateSkillCoverage => -> ->. Qed.

Lemma coverage_deterministic_witness :
  [/\ requiredSkills (run sampleProps leaderlessRun)
      = requiredSkills (run sampleProps completeRun),
      selectedVolunteers (run sampleProps leaderlessRun)
      = selectedVolunteers (run sampleProps completeRun),
      leaderId (run sampleProps leaderlessRun)
      <> leaderId (run sampleProps completeRun)
    & calculateSkillCoverage (run sampleProps leaderlessRun)
      = calculateSkillCoverage (run sampleProps completeRun)].
Proof.
split; [reflexivity | reflexivity | discriminate |].
by apply: coverage_deterministic.
Defined.

(** ** The selection and its leader *)

Section Selection.

Variable p : TeamBuilderProps.

Lemma find_first_has A (test : A -> bool) (a : seq A) :
  isSome (find_first test a) = has test a.
Proof. by elim: a => [|x a IH] //=; case: (test x). Qed.

Lemma has_memberId id (M : seq Volunteer) :
  has (fun v => Volunteer.id v == id) M = (id \in [seq Volunteer.id v | v <- M]).
Proof.
elim: M => [|v M IH] //=.
by rewrite in_cons IH eq_sym.
Qed.

Lemma memberIds_select v s :
  memberIds (handleSelectVolunteer v s) =
  if Volunteer.id v \in memberIds s then memberIds s
  else rcons (memberIds s) (Volunteer.id v).
Proof.
rewrite /handleSelectVolunteer find_first_has has_memberId -/(memberIds s).
by case: (_ \in _) => //=; rewrite /memberIds /= map_rcons.
Qed.

Lemma memberIds_remove id s :
  memberIds (handleRemoveVolunteer id s) = [seq x <- memberIds s | x != id].
Proof.
rewrite /handleRemoveVolunteer /memberIds filter_map.
by case: (leaderId s == Some id).
Qed.

Lemma leaderId_select v s : leaderId (handleSelectVolunteer v s) = leaderId s.
Proof. by rewrite /handleSelectVolunteer; case: (~~ _). Qed.

Lemma leaderId_remove id s :
  leaderId (handleRemoveVolunteer id s) =
  if leaderId s == Some id then None else leaderId s.
Proof. by rewrite /handleRemoveVolunteer; case: (leaderId s == Some id). Qed.

Lemma memberIds_toggle id s : memberIds (handleToggleSkill id s) = memberIds s.
Proof. by rewrite /handleToggleSkill; case: (id \in _). Qed.

Lemma leaderId_toggle id s : leaderId (handleToggleSkill id s) = leaderId s.
Proof. by rewrite /handleToggleSkill; case: (id \in _). Qed.

(** What the two asynchronous continuations and the create click leave
    of the selection: all of it, or the reset form. *)
Lemma selection_fetch r s :
  let s' := (fetchData_resume r s).1 in
  memberIds s' = memberIds s /\ leaderId s' = leaderId s.
Proof. by rewrite /fetchData_resume; case: (_ || _). Qed.

Lemma selection_create s :
  let s' := (handleCreateTeam p s).1 in
  memberIds s' = memberIds s /\ leaderId s' = leaderId s.
Proof.
rewrite /handleCreateTeam; case: (validateTeam s) => valid toasts.
by case: valid.
Qed.

Lemma selection_resume r s :
  let s' := (handleCreateTeam_resume p r s).1 in
  (memberIds s' = memberIds s /\ leaderId s' = leaderId s) \/
  (memberIds s' = [::] /\ leaderId s' = None).
Proof.
rewrite /handleCreateTeam_resume; case: (teamError r); first by left.
by case: (teamData r) => [[|teamId ids]|]; [left | right | left].
Qed.

(** One guarded event keeps the leader among the members. *)
Lemma leaderIsMember_step s e :
  leaderFromSelection s e -> leaderIsMember s -> leaderIsMember (step p s e).1.
Proof.
rewrite /leaderIsMember; case: e => //=.
- by move=> r _; have [-> ->] := selection_fetch r s.
- move=> v _; rewrite leaderId_select memberIds_select.
  case: (leaderId s) => // l; case: (Volunteer.id v \in memberIds s) => //.
  by rewrite mem_rcons in_cons => ->; rewrite orbT.
- move=> id _; rewrite leaderId_remove memberIds_remove.
  case: (leaderId s) => // l; case: eqP => // ne_l ml.
  rewrite mem_filter ml andbT; apply/eqP => l_id.
  by apply: ne_l; rewrite l_id.
- by move=> id _; rewrite leaderId_toggle memberIds_toggle.
- by move=> _; have [-> ->] := selection_create s.
- by move=> r _; case: (selection_resume r s) => [] [-> ->].
Qed.

Lemma reachable_leaderIsMember s :
  reachable p leaderFromSelection s -> leaderIsMember s.
Proof. by elim=> // {}s e _ IH g; apply: leaderIsMember_step. Qed.

(** One event, whichever, keeps the member ids pairwise distinct. *)
Lemma membersDistinct_select v s :
  membersDistinct s -> membersDistinct (handleSelectVolunteer v s).
Proof.
rewrite /membersDistinct memberIds_select.
case: ifP => // nin u; by rewrite rcons_uniq nin.
Qed.

Lemma membersDistinct_remove id s :
  membersDistinct s -> membersDistinct (handleRemoveVolunteer id s).
Proof. by rewrite /membersDistinct memberIds_remove; apply: filter_uniq. Qed.

Lemma membersDistinct_step s e :
  membersDistinct s -> membersDistinct (step p s e).1.
Proof.
case: e => //=.
- by move=> r; rewrite /membersDistinct; have [-> _] := selection_fetch r s.
- by move=> v; apply: membersDistinct_select.
- by move=> id; apply: membersDistinct_remove.
- by move=> id; rewrite /membersDistinct memberIds_toggle.
- by rewrite /membersDistinct; have [-> _] := selection_create s.
- by move=> r; rewrite /membersDistinct;
    case: (selection_resume r s) => [] [-> _].
Qed.

(** A list of events whose guards hold along the way is a reachable
    run. *)
Lemma reachable_foldl guard es s :
  reachable p guard s -> allowed p guard s es ->
  reachable p guard (foldl (fun s e => (step p s e).1) s es).
Proof.
elim: es s => [|e es IH] s //= rs /andP [ge ges].
by apply: IH => //; apply: reach_step.
Qed.

Lemma reachable_run guard es :
  allowed p guard initialState es -> reachable p guard (run p es).
Proof. by apply: reachable_foldl; apply: reach_init. Qed.

End Selection.

(** C8. [handleSetLeader v] makes [v] the leader id whatever the previous
    designation was, raises no toast and sends no request, and leaves the
    members, the required skills, the name, the description, the location
    and every other cell as they were. *)
Theorem handleSetLeader_frame (p : TeamBuilderProps) (s : State)
    (v : string) :
  let s' := handleSetLeader v s in
  [/\ leaderId s' = Some v,
      [/\ selectedVolunteers s' = selectedVolunteers s,
          requiredSkills s' = requiredSkills s,
          teamName s' = teamName s,
          teamDescription s' = teamDescription s
        & location s' = location s],
      [/\ volunteers s' = volunteers s,
          filteredVolunteers s' = filteredVolunteers s,
          skills s' = skills s,
          searchTerm s' = searchTerm s
        & filterSkill s' = filterSkill s],
      loading s' = loading s /\ saving s' = saving s
    & step p s (ClickSetLeader v) = (s', [::]) /\
      forall w, handleSetLeader v (handleSetLeader w s) = s'].
Proof. by []. Qed.

(** C9. In every state reached from the initial render by events among
    which [handleSetLeader] is only called with the id of a selected
    volunteer, the leader id is null or the id of a selected volunteer;
    removing the current leader sets the leader id to null, and the state
    after the removal satisfies the invariant again. *)
Theorem leader_invariant (p : TeamBuilderProps) (s : State) :
  reachable p leaderFromSelection s ->
  leaderIsMember s /\
  forall v, leaderId s = Some v ->
    leaderId (handleRemoveVolunteer v s) = None /\
    leaderIsMember (handleRemoveVolunteer v s).
Proof.
move=> rs; split; first exact: reachable_leaderIsMember rs.
move=> v lv; have -> : leaderId (handleRemoveVolunteer v s) = None.
  by rewrite leaderId_remove lv eqxx.
split=> //.
exact: (@leaderIsMember_step p s (ClickRemove v) isT
          (reachable_leaderIsMember rs)).
Qed.

Lemma leader_invariant_witness :
  [/\ reachable sampleProps leaderFromSelection
        (run sampleProps [:: fetched; ClickAddToTeam vol1;
                             ClickAddToTeam vol2; ClickSetLeader "v1"]),
      leaderId (run sampleProps [:: fetched; ClickAddToTeam vol1;
                                    ClickAddToTeam vol2; ClickSetLeader "v1"])
      = Some "v1"%string,
      leaderIsMember
        (run sampleProps [:: fetched; ClickAddToTeam vol1;
                             ClickAddToTeam vol2; ClickSetLeader "v1"])
    & leaderId (run sampleProps leaderRemovedRun) = None].
Proof.
have r : reachable sampleProps leaderFromSelection
           (run sampleProps [:: fetched; ClickAddToTeam vol1;
                                ClickAddToTeam vol2; ClickSetLeader "v1"]).
  by apply: reachable_run.
have [inv rem] := leader_invariant r.
split; [exact: r | reflexivity | exact: inv |].
exact: (proj1 (rem "v1"%string (erefl _))).
Defined.

(** Without the proviso the invariant fails: a call of [handleSetLeader]
    with the id of a volunteer that is not selected is not checked. *)
Remark leader_proviso_needed :
  reachable sampleProps anyEvent
    (run sampleProps [:: fetched; ClickAddToTeam vol1; ClickSetLeader "v2"])
  /\ leaderIsMember
       (run sampleProps [:: fetched; ClickAddToTeam vol1; ClickSetLeader "v2"])
     = false.
Proof. by split; first exact: reachable_run. Qed.

(** [handleSelectVolunteer] is the identity on a volunteer whose id is
    already selected. *)
Lemma handleSelectVolunteer_selected (v : Volunteer) (s : State) :
  Volunteer.id v \in memberIds s -> handleSelectVolunteer v s = s.
Proof.
by rewrite /handleSelectVolunteer find_first_has has_memberId => ->.
Qed.

(** C10. In every state reached from the initial render, by any events,
    the ids of the selected volunteers are pairwise distinct; selecting a
    volunteer whose id is already selected changes nothing, and one more
    select or remove keeps the ids distinct. *)
Theorem members_distinct (p : TeamBuilderProps) (s : State) :
  reachable p anyEvent s ->
  [/\ membersDistinct s,
      forall v, Volunteer.id v \in memberIds s -> handleSelectVolunteer v s = s,
      forall v, membersDistinct (handleSelectVolunteer v s)
    & forall id, membersDistinct (handleRemoveVolunteer id s)].
Proof.
move=> rs.
have u : membersDistinct s.
  by elim: rs => // {}s e _ IH _; apply: membersDistinct_step.
split=> //.
- by move=> v; apply: handleSelectVolunteer_selected.
- by move=> v; apply: membersDistinct_select.
- by move=> id; apply: membersDistinct_remove.
Qed.

Lemma members_distinct_witness :
  [/\ reachable sampleProps anyEvent
        (run sampleProps [:: fetched; ClickAddToTeam vol1; ClickAddToTeam vol2]),
      membersDistinct (run sampleProps addedTwiceRun)
    & memberIds (run sampleProps addedTwiceRun) = [:: "v1"; "v2"]%string].
Proof.
have r : reachable sampleProps anyEvent
           (run sampleProps [:: fetched; ClickAddToTeam vol1; ClickAddToTeam vol2]).
  by apply: reachable_run.
have [_ _ sel _] := members_distinct r.
split; [exact: r | exact: (sel vol1) | reflexivity].
Defined.

(** ** Creating a team *)

Lemma trim_empty : Js.trim EmptyString = EmptyString.
Proof. by []. Qed.


(** [validateTeam] answers [true] exactly when its three tests pass, and
    then raises no toast; otherwise it raises exactly one error toast. *)
Lemma validateTeamE (s : State) :
  (validateTeam s).1 =
  [&& Js.truthy (Js.trim (teamName s)), ~~ nilp (selectedVolunteers s)
    & Js.otruthy (leaderId s)].
Proof.
rewrite /validateTeam /nilp.
by case: (Js.truthy _); case: (size _ == 0); case: (Js.otruthy (leaderId s)).
Qed.

Lemma validateTeam_toasts (s : State) :
  if (validateTeam s).1 then (validateTeam s).2 = [::]
  else exists msg, (validateTeam s).2 = [:: ToastError msg].
Proof.
rewrite /validateTeam.
by case: (Js.truthy _); case: (size _ == 0);
   case: (Js.otruthy (leaderId s)) => //=; eexists.
Qed.

Lemma handleCreateTeamE (p : TeamBuilderProps) (s : State) :
  handleCreateTeam p s =
  if (validateTeam s).1
  then (setSaving s true, [:: InsertTeam (teamRow p s)])
  else (s, (validateTeam s).2).
Proof.
rewrite /handleCreateTeam; have := validateTeam_toasts s.
by case: (validateTeam s) => [[] toasts] /= => [->|].
Qed.





(** The other scenario of the specification: an empty name with one
    member is rejected, and no record is created. *)
Example createTeam_empty_name :
  handleCreateTeam sampleProps
    (run sampleProps [:: fetched; ClickAddToTeam vol1; ClickSetLeader "v1"])
  = (run sampleProps [:: fetched; ClickAddToTeam vol1; ClickSetLeader "v1"],
     [:: ToastError "Team name is required"]).
Proof. by vm_compute. Qed.

(** A complete form is sent: name, leader, member ids and required
    skills of the current cells, and [saving] is raised. *)
Example createTeam_complete :
  handleCreateTeam sampleProps (run sampleProps completeRun)
  = (setSaving (run sampleProps completeRun) true,
     [:: InsertTeam
           {| ins_name := "Alpha"; ins_description := EmptyString;
              ins_leader_id := Some "v2"%string;
              ins_members := [:: "v1"; "v2"]%string;
              ins_skills_required := [::]; ins_active := true;
              ins_incident_id := None; ins_location := None |}]).
Proof. by vm_compute. Qed.

(** [validateTeam] itself does not look the leader up among the members:
    on cells that no run produces, a leader id outside the selection
    passes. The invariant of the selection is what excludes them. *)
Remark validateTeam_ignores_membership :
  let s := setLeaderId (setSelectedVolunteers sampleState [:: vol1])
             (Some "v2"%string) in
  (validateTeam s).1 = true /\ leaderDesignated s = false.
Proof. by []. Qed.

(** A name of white space only is rejected as well. *)
Example createTeam_blank_name :
  (validateTeam (setTeamName (run sampleProps completeRun) "  ")).1 = false.
Proof. by []. Qed.

(** * Further properties of the component *)

(** ** Skill coverage and the team *)

Section CoverageOrder.

Variables (T : eqType) (a b : pred T).
Hypothesis sub_ab : subpred a b.

(** A stronger test keeps a sublist of what a weaker one keeps. *)
Lemma filter_sub_subseq (r : seq T) : subseq (filter a r) (filter b r).
Proof.
have -> : filter a r = filter a (filter b r).
  rewrite -filter_predI; apply: eq_filter => x /=.
  by case ax: (a x) => //; rewrite (sub_ab ax).
exact: filter_subseq.
Qed.

End CoverageOrder.

Lemma isCovered_rcons M v x :
  isCovered (rcons M v) x = isCovered M x || hasFilterSkill x v.
Proof. by rewrite /isCovered has_rcons orbC. Qed.

Lemma isCovered_filter (keep : pred Volunteer) M x :
  isCovered (filter keep M) x -> isCovered M x.
Proof.
rewrite /isCovered !has_count count_filter.
move=> pos; apply: leq_trans pos _.
by apply: sub_count => v /andP [].
Qed.

(** If the members of two states cover the same skills, the coverage of
    the same required skills is the same. *)
Lemma coverage_ext s1 s2 :
  requiredSkills s1 = requiredSkills s2 ->
  isCovered (selectedVolunteers s1) =1 isCovered (selectedVolunteers s2) ->
  calculateSkillCoverage s1 = calculateSkillCoverage s2.
Proof.
move=> eqR eqM; rewrite !calculateSkillCoverageE eqR.
congr (Ok (Build_SkillCoverage _ _)); apply: eq_filter => x //.
by rewrite eqM.
Qed.

(** X1. A required skill is listed as covered exactly when some selected
    volunteer has it among their skills, as missing exactly when none has,
    and both lists keep the order of the required skills. *)
Theorem coverage_semantics (s : State) :
  exists c,
    [/\ calculateSkillCoverage s = Ok c,
        forall x, (x \in covered c)
                  = (x \in requiredSkills s) && isCovered (selectedVolunteers s) x,
        forall x, (x \in missing c)
                  = (x \in requiredSkills s) && ~~ isCovered (selectedVolunteers s) x,
        subseq (covered c) (requiredSkills s)
      & subseq (missing c) (requiredSkills s)].
Proof.
eexists; split; first exact: calculateSkillCoverageE.
- by move=> x; rewrite mem_filter andbC.
- by move=> x; rewrite mem_filter andbC.
- exact: filter_subseq.
- exact: filter_subseq.
Qed.

(** X2. Adding a volunteer to the team never loses coverage: the covered
    skills before are a sublist of the covered skills after, and the
    missing skills after are a sublist of the missing skills before. *)
Theorem coverage_grows_on_select (s : State) (v : Volunteer) :
  exists c c',
    [/\ calculateSkillCoverage s = Ok c,
        calculateSkillCoverage (handleSelectVolunteer v s) = Ok c',
        subseq (covered c) (covered c')
      & subseq (missing c') (missing c)].
Proof.
do 2![eexists]; split; try exact: calculateSkillCoverageE.
- have -> : requiredSkills (handleSelectVolunteer v s) = requiredSkills s.
    by rewrite /handleSelectVolunteer; case: (~~ _).
  apply: filter_sub_subseq => x; rewrite /handleSelectVolunteer.
  by case: (~~ _) => //=; rewrite isCovered_rcons => ->.
- have -> : requiredSkills (handleSelectVolunteer v s) = requiredSkills s.
    by rewrite /handleSelectVolunteer; case: (~~ _).
  apply: filter_sub_subseq => x; apply: contra; rewrite /handleSelectVolunteer.
  by case: (~~ _) => //=; rewrite isCovered_rcons => ->.
Qed.

(** X3. Removing a volunteer never adds coverage: the covered skills
    after are a sublist of the covered skills before, and the missing
    skills before are a sublist of the missing skills after. *)
Theorem coverage_shrinks_on_remove (s : State) (id : string) :
  exists c c',
    [/\ calculateSkillCoverage s = Ok c,
        calculateSkillCoverage (handleRemoveVolunteer id s) = Ok c',
        subseq (covered c') (covered c)
      & subseq (missing c) (missing c')].
Proof.
have eqR : requiredSkills (handleRemoveVolunteer id s) = requiredSkills s.
  by rewrite /handleRemoveVolunteer; case: (leaderId s == _).
have eqM : selectedVolunteers (handleRemoveVolunteer id s)
           = [seq v <- selectedVolunteers s | Volunteer.id v != id].
  by rewrite /handleRemoveVolunteer; case: (leaderId s == _).
do 2![eexists]; split; try exact: calculateSkillCoverageE.
- rewrite eqR eqM; apply: filter_sub_subseq => x.
  exact: isCovered_filter.
- rewrite eqR eqM; apply: filter_sub_subseq => x; apply: contra.
  exact: isCovered_filter.
Qed.

(** X4. The coverage does not depend on the order of the members: two
    teams listed in opposite order, or made of the same two groups in
    either order, get the same result. *)
Theorem coverage_member_order (s : State) (M1 M2 : seq Volunteer) :
  calculateSkillCoverage (setSelectedVolunteers s (M1 ++ M2))
  = calculateSkillCoverage (setSelectedVolunteers s (M2 ++ M1))
  /\ calculateSkillCoverage (setSelectedVolunteers s (rev M1))
     = calculateSkillCoverage (setSelectedVolunteers s M1).
Proof.
split; apply: coverage_ext => //= x; rewrite /isCovered.
- by rewrite !has_cat orbC.
- by rewrite has_rev.
Qed.

(** ** Required skills *)

Lemma requiredSkills_toggle id s :
  requiredSkills (handleToggleSkill id s) =
  if id \in requiredSkills s then [seq x <- requiredSkills s | x != id]
  else rcons (requiredSkills s) id.
Proof. by rewrite /handleToggleSkill; case: (id \in _). Qed.

(** Filtering an id out of a list that does not hold it changes
    nothing. *)
Lemma filter_absent (T : eqType) (x : T) (r : seq T) :
  x \notin r -> [seq y <- r | y != x] = r.
Proof.
move=> nin; apply/all_filterP/allP => y yr.
by apply: contraNneq nin => <-.
Qed.

(** One event, whichever, keeps the required skills pairwise distinct. *)
Lemma requiredDistinct_step p s e :
  uniq (requiredSkills s) -> uniq (requiredSkills (step p s e).1).
Proof.
case: e => //=.
- by move=> r; rewrite /fetchData_resume; case: (_ || _).
- by move=> v; rewrite /handleSelectVolunteer; case: (~~ _).
- by move=> id; rewrite /handleRemoveVolunteer; case: (leaderId s == _).
- move=> id u; rewrite requiredSkills_toggle; case: ifP => [_|nin].
    exact: filter_uniq.
  by rewrite rcons_uniq nin.
- by rewrite handleCreateTeamE; case: (validateTeam s).1.
- move=> r; rewrite /handleCreateTeam_resume; case: (teamError r) => //.
  by case: (teamData r) => [[|i l]|].
Qed.

(** X5. Toggling a skill flips whether that skill is required and leaves
    every other skill as it was, whatever the list held before. *)
Theorem toggle_membership (s : State) (id x : string) :
  (x \in requiredSkills (handleToggleSkill id s)) =
  if x == id then id \notin requiredSkills s else x \in requiredSkills s.
Proof.
rewrite requiredSkills_toggle; case: ifP => [idR|idR].
- by rewrite mem_filter; case: eqP => [->|_] //=; rewrite idR.
- by rewrite mem_rcons in_cons; case: eqP => [->|_] //=; rewrite idR.
Qed.

(** X6. In every state the component reaches, by any events, no skill is
    listed twice among the required skills. *)
Theorem required_skills_distinct (p : TeamBuilderProps) (s : State) :
  reachable p anyEvent s -> uniq (requiredSkills s).
Proof. by elim=> // {}s e _ IH _; apply: requiredDistinct_step. Qed.

Lemma required_skills_distinct_witness :
  reachable sampleProps anyEvent
    (run sampleProps [:: ToggleSkill "Driving"; ToggleSkill "CPR";
                         ToggleSkill "Driving"; ToggleSkill "Driving"]) /\
  uniq (requiredSkills
          (run sampleProps [:: ToggleSkill "Driving"; ToggleSkill "CPR";
                               ToggleSkill "Driving"; ToggleSkill "Driving"])).
Proof.
have r : reachable sampleProps anyEvent
    (run sampleProps [:: ToggleSkill "Driving"; ToggleSkill "CPR";
                         ToggleSkill "Driving"; ToggleSkill "Driving"]).
  by apply: reachable_run.
by split; [exact: r | exact: (required_skills_distinct r)].
Defined.

(** X7. Ticking a skill that is not required and unticking it again gives
    back the very same state. *)
Theorem toggle_twice_absent (s : State) (id : string) :
  id \notin requiredSkills s ->
  handleToggleSkill id (handleToggleSkill id s) = s.
Proof.
move=> nin; rewrite /handleToggleSkill (negPf nin) /=.
rewrite mem_rcons mem_head /= filter_rcons eqxx /= filter_absent //.
by case: s nin.
Qed.

Lemma toggle_twice_absent_witness :
  "CPR"%string \notin requiredSkills sampleState /\
  handleToggleSkill "CPR" (handleToggleSkill "CPR" sampleState) = sampleState.
Proof. by split; [| apply: toggle_twice_absent]. Defined.

(** X8. Unticking a required skill and ticking it again keeps the same
    set of required skills but not the list: every copy of the skill is
    dropped and one is put at the end. When the list held no skill twice,
    as in every state the component reaches, the new list is a permutation
    of the old one; with a skill listed twice it is shorter. *)
Theorem toggle_twice_present (s : State) (id : string) :
  id \in requiredSkills s ->
  [/\ requiredSkills (handleToggleSkill id (handleToggleSkill id s))
      = rcons [seq x <- requiredSkills s | x != id] id,
      requiredSkills (handleToggleSkill id (handleToggleSkill id s))
      =i requiredSkills s
    & uniq (requiredSkills s) ->
      perm_eq (requiredSkills (handleToggleSkill id (handleToggleSkill id s)))
        (requiredSkills s)].
Proof.
move=> idR.
have -> : requiredSkills (handleToggleSkill id (handleToggleSkill id s))
          = rcons [seq x <- requiredSkills s | x != id] id.
  by rewrite !requiredSkills_toggle idR mem_filter eqxx.
split=> // [x|u].
- rewrite mem_rcons in_cons mem_filter.
  by case: eqP => [->|_] //=; rewrite idR.
- rewrite perm_rcons perm_sym.
  rewrite -(perm_filterC (pred1 id) (requiredSkills s)).
  by rewrite filter_pred1_uniq.
Qed.

Lemma toggle_twice_present_witness :
  [/\ "First Aid"%string \in requiredSkills sampleState,
      requiredSkills
        (handleToggleSkill "First Aid" (handleToggleSkill "First Aid" sampleState))
      = [:: "Driving"; "First Aid"]%string
    & perm_eq
        (requiredSkills
           (handleToggleSkill "First Aid"
              (handleToggleSkill "First Aid" sampleState)))
        (requiredSkills sampleState)].
Proof.
have [eqR _ perm] :=
  @toggle_twice_present sampleState "First Aid"%string (erefl true).
split; [reflexivity | exact: eqR | exact: (perm (erefl true))].
Defined.

(** With a skill listed twice the two toggles lose a copy: the list is
    not a permutation of the old one. No run produces such a list. *)
Remark toggle_twice_duplicate :
  requiredSkills
    (handleToggleSkill "a"
       (handleToggleSkill "a"
          (setRequiredSkills sampleState [:: "a"; "a"; "b"]%string)))
  = [:: "b"; "a"]%string.
Proof. by vm_compute. Qed.

(** ** Adding and removing members *)

Lemma addDisabledE s v : addDisabled s v = (Volunteer.id v \in memberIds s).
Proof. by rewrite /addDisabled has_memberId. Qed.


(** Filtering out an id that no volunteer of the list has keeps the
    list. *)
Lemma filter_other_ids (M : seq Volunteer) (id : string) :
  id \notin [seq Volunteer.id v | v <- M] ->
  [seq v <- M | Volunteer.id v != id] = M.
Proof.
elim: M => [|v M IH] //=; rewrite in_cons negb_or eq_sym => /andP [-> nin].
by rewrite IH.
Qed.

(** X9. The "Add to team" button of a volunteer is disabled exactly when
    the handler behind it would change nothing; an enabled button appends
    that one volunteer at the end of the team. *)
Theorem add_button_agrees (s : State) (v : Volunteer) :
  (addDisabled s v <-> handleSelectVolunteer v s = s) /\
  (selectedVolunteers (handleSelectVolunteer v s)
   = if addDisabled s v then selectedVolunteers s
     else rcons (selectedVolunteers s) v).
Proof.
have E : selectedVolunteers (handleSelectVolunteer v s)
         = if addDisabled s v then selectedVolunteers s
           else rcons (selectedVolunteers s) v.
  rewrite /handleSelectVolunteer find_first_has -/(addDisabled s v).
  by case: (addDisabled s v).
split=> //; split.
- by rewrite addDisabledE; apply: handleSelectVolunteer_selected.
- move=> same; move: E; rewrite same; case: (addDisabled s v) => //.
  by move/(congr1 size); rewrite size_rcons => /n_Sn.
Qed.

(** X10. After [handleRemoveVolunteer id] no selected volunteer has that
    id, every other id is selected exactly if it was before, and the
    remaining members keep their order. *)
Theorem remove_effective (s : State) (id : string) :
  [/\ id \notin memberIds (handleRemoveVolunteer id s),
      forall x, x != id ->
        (x \in memberIds (handleRemoveVolunteer id s)) = (x \in memberIds s)
    & subseq (memberIds (handleRemoveVolunteer id s)) (memberIds s)].
Proof.
split.
- by rewrite memberIds_remove mem_filter eqxx.
- by move=> x xid; rewrite memberIds_remove mem_filter xid.
- by rewrite memberIds_remove; apply: filter_subseq.
Qed.

(** X11. When the leader, if any, is a member, removing a volunteer that
    is not in the team changes nothing: neither the members nor the
    leader. *)
Theorem remove_not_selected (s : State) (id : string) :
  leaderIsMember s -> id \notin memberIds s ->
  handleRemoveVolunteer id s = s.
Proof.
rewrite /handleRemoveVolunteer /leaderIsMember => inv nin.
have -> : (leaderId s == Some id) = false.
  case: (leaderId s) inv => // l lM; apply/eqP => -[lid].
  by rewrite -lid lM in nin.
rewrite (filter_other_ids nin).
by case: s {inv nin}.
Qed.

Lemma remove_not_selected_witness :
  [/\ leaderIsMember (run sampleProps completeRun),
      "v9"%string \notin memberIds (run sampleProps completeRun)
    & handleRemoveVolunteer "v9" (run sampleProps completeRun)
      = run sampleProps completeRun].
Proof. by split; [| | apply: remove_not_selected]. Defined.

(** X12. When the leader, if any, is a member, adding a volunteer whose
    button is enabled and removing that volunteer again gives back the
    very same state. *)
Theorem select_then_remove (s : State) (v : Volunteer) :
  leaderIsMember s -> ~~ addDisabled s v ->
  handleRemoveVolunteer (Volunteer.id v) (handleSelectVolunteer v s) = s.
Proof.
rewrite addDisabledE => inv nin.
have ld : (leaderId s == Some (Volunteer.id v)) = false.
  move: inv; rewrite /leaderIsMember; case: (leaderId s) => // l lM.
  by apply/eqP => -[lid]; rewrite -lid lM in nin.
rewrite /handleSelectVolunteer find_first_has has_memberId -/(memberIds s).
rewrite nin /handleRemoveVolunteer /= ld filter_rcons eqxx /=.
rewrite (filter_other_ids nin).
by case: s {inv nin ld}.
Qed.

Lemma select_then_remove_witness :
  [/\ leaderIsMember (run sampleProps [:: fetched; ClickAddToTeam vol1;
                                          ClickSetLeader "v1"]),
      ~~ addDisabled (run sampleProps [:: fetched; ClickAddToTeam vol1;
                                          ClickSetLeader "v1"]) vol2
    & handleRemoveVolunteer "v2"
        (handleSelectVolunteer vol2
           (run sampleProps [:: fetched; ClickAddToTeam vol1;
                                ClickSetLeader "v1"]))
      = run sampleProps [:: fetched; ClickAddToTeam vol1; ClickSetLeader "v1"]].
Proof.
split; [reflexivity | reflexivity |].
exact: (@select_then_remove
          (run sampleProps [:: fetched; ClickAddToTeam vol1; ClickSetLeader "v1"])
          vol2 (erefl true) (erefl true)).
Defined.



(** ** The list of available volunteers *)

(** The list the filter effect computes, which reads three cells only. *)
Lemma filterEffect_reads s t :
  volunteers s = volunteers t -> searchTerm s = searchTerm t ->
  filterSkill s = filterSkill t ->
  filteredVolunteers (filterEffect s) = filteredVolunteers (filterEffect t).
Proof. by rewrite /filterEffect /= => -> -> ->. Qed.

Lemma filterEffect_fixed s :
  filteredVolunteers s = filteredVolunteers (filterEffect s) ->
  filterEffect s = s.
Proof.
move=> fixed.
have -> : filterEffect s
          = setFilteredVolunteers s (filteredVolunteers (filterEffect s)).
  by [].
by rewrite -fixed; case: s {fixed}.
Qed.

(** One event, whichever, leaves the filtered list equal to the filter of
    the loaded volunteers. *)
Lemma filtered_step p s e :
  filteredVolunteers s = filteredVolunteers (filterEffect s) ->
  filteredVolunteers (step p s e).1
  = filteredVolunteers (filterEffect (step p s e).1).
Proof.
move=> inv; case: e => [r|x|x|x|x|x|v|id|id|id||r]; rewrite /step.
- by rewrite /fetchData_resume; case: (_ || _); [exact: inv|].
- exact: inv.
- exact: inv.
- exact: inv.
- by [].
- by [].
- by rewrite /handleSelectVolunteer; case: (~~ _); exact: inv.
- by rewrite /handleRemoveVolunteer; case: (leaderId s == _); exact: inv.
- exact: inv.
- by rewrite /handleToggleSkill; case: (id \in _); exact: inv.
- by rewrite handleCreateTeamE; case: (validateTeam s).1; exact: inv.
- rewrite /handleCreateTeam_resume; case: (teamError r); first exact: inv.
  by case: (teamData r) => [[|i l]|]; exact: inv.
Qed.

Lemma reachable_filtered p guard s :
  reachable p guard s ->
  filteredVolunteers s = filteredVolunteers (filterEffect s).
Proof. by elim=> // {}s e _ IH _; apply: filtered_step. Qed.

(** X14. In every state the component reaches, by any events, the list of
    available volunteers is the one the filter effect computes from the
    loaded volunteers, the search term and the skill filter: running the
    effect once more would change nothing. *)
Theorem filtered_up_to_date (p : TeamBuilderProps) (s : State) :
  reachable p anyEvent s -> filterEffect s = s.
Proof. by move=> rs; apply/filterEffect_fixed/(reachable_filtered rs). Qed.

Lemma filtered_up_to_date_witness :
  [/\ reachable sampleProps anyEvent
        (run sampleProps [:: fetched; ChangeSearchTerm "AD";
                             ClickAddToTeam vol1; ChangeTeamName "Alpha"]),
      filteredVolunteers
        (run sampleProps [:: fetched; ChangeSearchTerm "AD";
                             ClickAddToTeam vol1; ChangeTeamName "Alpha"])
      = [:: vol1]
    & filterEffect
        (run sampleProps [:: fetched; ChangeSearchTerm "AD";
                             ClickAddToTeam vol1; ChangeTeamName "Alpha"])
      = run sampleProps [:: fetched; ChangeSearchTerm "AD";
                            ClickAddToTeam vol1; ChangeTeamName "Alpha"]].
Proof.
have r : reachable sampleProps anyEvent
           (run sampleProps [:: fetched; ChangeSearchTerm "AD";
                                ClickAddToTeam vol1; ChangeTeamName "Alpha"]).
  by apply: reachable_run.
split; [exact: r | by vm_compute | exact: (filtered_up_to_date r)].
Defined.

(** ** The name test of the validation *)

Lemma chars_reverse t : chars (Js.reverse t) = rev (chars t).
Proof. by rewrite /chars /Js.reverse list_ascii_of_string_of_list_ascii. Qed.

Lemma chars_empty t : (t == EmptyString) = nilp (chars t).
Proof. by case: t. Qed.

Lemma reverse_empty t : (Js.reverse t == EmptyString) = (t == EmptyString).
Proof.
by rewrite !chars_empty chars_reverse /nilp size_rev.
Qed.

Lemma trimStart_empty t :
  (Js.trimStart t == EmptyString) = all Js.is_whitespace (chars t).
Proof. by elim: t => [|c t IH] //=; case: (Js.is_whitespace c). Qed.

Lemma trimStart_blank t :
  all Js.is_whitespace (chars (Js.trimStart t))
  = all Js.is_whitespace (chars t).
Proof.
elim: t => [|c t IH] //=; case ws: (Js.is_whitespace c) => //=.
by rewrite ws.
Qed.

(** [trim] leaves nothing exactly of the strings made of white space. *)
Lemma trim_blank t :
  Js.truthy (Js.trim t) = ~~ all Js.is_whitespace (chars t).
Proof.
rewrite /Js.truthy /Js.trim /Js.trimEnd reverse_empty trimStart_empty.
by rewrite chars_reverse all_rev trimStart_blank.
Qed.

(** X17. The toast of [handleCreateTeam] names the first test that
    fails, in the order name, members, leader: "Team name is required"
    exactly when the trimmed name is empty, whatever the members and the
    leader are; "Please select at least one volunteer" exactly when the
    trimmed name is not empty and nobody is selected; "Please designate a
    team leader" exactly when the trimmed name is not empty, somebody is
    selected and the leader id is null or empty; the row is sent exactly
    when the three tests pass. A rejection leaves the state as it was. *)
Theorem validation_order (p : TeamBuilderProps) (s : State) :
  [/\ handleCreateTeam p s = (s, [:: ToastError "Team name is required"])
      <-> ~~ Js.truthy (Js.trim (teamName s)),
      handleCreateTeam p s
      = (s, [:: ToastError "Please select at least one volunteer"])
      <-> Js.truthy (Js.trim (teamName s)) && nilp (selectedVolunteers s),
      handleCreateTeam p s
      = (s, [:: ToastError "Please designate a team leader"])
      <-> [&& Js.truthy (Js.trim (teamName s)),
              ~~ nilp (selectedVolunteers s) & ~~ Js.otruthy (leaderId s)]
    & handleCreateTeam p s
      = (setSaving s true, [:: InsertTeam (teamRow p s)])
      <-> [&& Js.truthy (Js.trim (teamName s)),
              ~~ nilp (selectedVolunteers s) & Js.otruthy (leaderId s)]].
Proof.
rewrite handleCreateTeamE /validateTeam /nilp.
case: (Js.truthy _); case: (size _ == 0); case: (Js.otruthy (leaderId s));
  by split; split=> //; case.
Qed.

(** ** What is sent to the store *)

Lemma or_null_nonempty o : or_null o != Some EmptyString.
Proof. by case: o => [[|c t]|]. Qed.

Lemma reachable_requiredDistinct p guard s :
  reachable p guard s -> uniq (requiredSkills s).
Proof. by elim=> // {}s e _ IH _; apply: requiredDistinct_step. Qed.

(** From a state that satisfies the three invariants of the form, every
    effect of one event is well formed. *)
Lemma wellFormed_step p s e :
  leaderIsMember s -> membersDistinct s -> uniq (requiredSkills s) ->
  all wellFormedEffect (step p s e).2.
Proof.
move=> lM uM uR; case: e => //=.
- by move=> r; rewrite /fetchData_resume; case: (_ || _).
- rewrite handleCreateTeamE; have := validateTeam_toasts s.
  have := validateTeamE s; case: (validateTeam s).1 => /=; last first.
    by move=> _ [msg ->].
  move=> /esym/and3P []; rewrite trim_blank /nilp => nm mem ld _.
  rewrite andbT /wellFormedRow /= nm uR !or_null_nonempty /=.
  rewrite -/(membersDistinct s) uM /memberIds size_map lt0n mem /=.
  by move: lM ld; rewrite /leaderIsMember /memberIds andbT; case: (leaderId s).
- move=> r; rewrite /handleCreateTeam_resume; case: (teamError r) => //.
  by case: (teamData r) => [[|i l]|] //=; case: (onTeamCreated p).
Qed.

Lemma wellFormed_run p es s :
  leaderIsMember s -> membersDistinct s -> uniq (requiredSkills s) ->
  allowed p leaderFromSelection s es ->
  all wellFormedEffect (effectsOf p s es).
Proof.
elim: es s => [|e es IH] s //= lM uM uR /andP [ge ges].
rewrite all_cat wellFormed_step //=; apply: IH => //.
- exact: leaderIsMember_step.
- exact: membersDistinct_step.
- exact: requiredDistinct_step.
Qed.

(** X18. Along every run from the initial render in which the leader is
    chosen from the selection, every row sent to the store is well
    formed: its name has a character that is not white space, it has at
    least one member, members and required skills are pairwise distinct,
    the leader is one of the members, the team is active, and the
    incident and the location are null rather than empty. *)
Theorem rows_well_formed (p : TeamBuilderProps) (es : seq Event) :
  allowed p leaderFromSelection initialState es ->
  all wellFormedEffect (effectsOf p initialState es).
Proof. exact: wellFormed_run. Qed.

Lemma rows_well_formed_witness :
  [/\ allowed sampleProps leaderFromSelection initialState
        (completeRun ++ [:: ClickCreateTeam]),
      has is_insert
        (effectsOf sampleProps initialState (completeRun ++ [:: ClickCreateTeam]))
    & all wellFormedEffect
        (effectsOf sampleProps initialState (completeRun ++ [:: ClickCreateTeam]))].
Proof.
split; [by vm_compute | by vm_compute |].
by apply: rows_well_formed; vm_compute.
Defined.

(** X19. After an insert that the store answers without error and with at
    least one row, the form is empty and the loaded data, the filters and
    the list of available volunteers are kept; the success toast and, if
    passed, the callback with the id of the first row are raised; a click
    on "Create Team" right after is rejected for its empty name, so the
    same team cannot be sent twice. *)
Theorem created_form_reset (p : TeamBuilderProps) (r : InsertResponse)
    (s : State) (teamId : string) (ids : seq string) :
  teamError r = false -> teamData r = Some (teamId :: ids) ->
  let s' := (handleCreateTeam_resume p r s).1 in
  [/\ handleCreateTeam p s' = (s', [:: ToastError "Team name is required"]),
      s' = mkState (volunteers s) (filteredVolunteers s) [::] (skills s)
             EmptyString EmptyString None [::] EmptyString (loading s) false
             (searchTerm s) (filterSkill s)
    & (handleCreateTeam_resume p r s).2
      = ToastSuccess "Team created successfully!"
        :: (if onTeamCreated p then [:: CallOnTeamCreated teamId] else [::])].
Proof. by rewrite /handleCreateTeam_resume => -> ->. Qed.

Lemma created_form_reset_witness :
  handleCreateTeam sampleProps
    (handleCreateTeam_resume sampleProps
       {| teamData := Some [:: "t1"%string]; teamError := false |}
       (run sampleProps (completeRun ++ [:: ClickCreateTeam]))).1
  = ((handleCreateTeam_resume sampleProps
        {| teamData := Some [:: "t1"%string]; teamError := false |}
        (run sampleProps (completeRun ++ [:: ClickCreateTeam]))).1,
     [:: ToastError "Team name is required"]).
Proof.
by have [] := @created_form_reset sampleProps
       {| teamData := Some [:: "t1"%string]; teamError := false |}
       (run sampleProps (completeRun ++ [:: ClickCreateTeam]))
       "t1"%string [::] (erefl _) (erefl _).
Defined.

(** ** Requests in flight and the spinner *)

Lemma saving_create p s :
  saving s = false ->
  saving (handleCreateTeam p s).1 = (validateTeam s).1 /\
  count is_insert (handleCreateTeam p s).2 = (validateTeam s).1.
Proof.
move=> idle; rewrite handleCreateTeamE; have := validateTeam_toasts s.
by case: (validateTeam s).1 => //= -[msg ->].
Qed.

Lemma saving_resume p r s : saving (handleCreateTeam_resume p r s).1 = false.
Proof.
rewrite /handleCreateTeam_resume; case: (teamError r) => //.
by case: (teamData r) => [[|i l]|].
Qed.

(** The counter of [flights] equals the [saving] cell all along. *)
Lemma flights_saving p es s0 s n :
  flights p s0 (saving s0) es = Some (s, n) -> n = saving s :> nat.
Proof.
elim: es s0 => [|e es IH] s0 /=; first by case=> <- <-.
case: e => [r|x|x|x|x|x|v|id|id|id||r]; rewrite /step.
- rewrite /fetchData_resume; case: (_ || _) => /=; exact: IH.
- exact: IH.
- exact: IH.
- exact: IH.
- exact: IH.
- exact: IH.
- rewrite /handleSelectVolunteer; case: (~~ _) => /=; exact: IH.
- rewrite /handleRemoveVolunteer; case: (leaderId s0 == _) => /=; exact: IH.
- exact: IH.
- rewrite /handleToggleSkill; case: (id \in _) => /=; exact: IH.
- case idle: (saving s0); first by case: (handleCreateTeam p s0).
  have [sv cnt] := saving_create p idle.
  case: (handleCreateTeam p s0) sv cnt => s1 effects /= sv ->.
  by rewrite add0n -sv; apply: IH.
- case sv: (saving s0); last by case: (handleCreateTeam_resume p r s0).
  have := saving_resume p r s0.
  case: (handleCreateTeam_resume p r s0) => s1 effects /= sv1 fl.
  by apply: (IH s1); rewrite sv1.
Qed.

(** X20. At most one insert request is in flight: along every run that
    the "Create Team" button (disabled while saving) and the store allow,
    the number of requests sent and not yet answered is 1 while [saving] is
    set and 0 otherwise. *)
Theorem single_flight (p : TeamBuilderProps) (es : seq Event) (s : State)
    (n : nat) :
  flights p initialState 0 es = Some (s, n) ->
  n = saving s :> nat /\ n <= 1.
Proof.
move=> /(@flights_saving p es initialState) ->.
by split=> //; case: (saving s).
Qed.

Lemma single_flight_witness :
  [/\ flights sampleProps initialState 0 (completeRun ++ [:: ClickCreateTeam])
      = Some (run sampleProps (completeRun ++ [:: ClickCreateTeam]), 1),
      flights sampleProps initialState 0
        (completeRun ++ [:: ClickCreateTeam; ClickCreateTeam]) = None
    & 1 = saving (run sampleProps (completeRun ++ [:: ClickCreateTeam])) :> nat].
Proof.
have f : flights sampleProps initialState 0 (completeRun ++ [:: ClickCreateTeam])
         = Some (run sampleProps (completeRun ++ [:: ClickCreateTeam]), 1).
  by vm_compute.
split; [exact: f | by vm_compute | exact: (proj1 (single_flight f))].
Defined.

Lemma loading_off p s e : loading s = false -> loading (step p s e).1 = false.
Proof.
move=> off; case: e => [r|x|x|x|x|x|v|id|id|id||r] //=.
- by rewrite /fetchData_resume; case: (_ || _).
- by rewrite /handleSelectVolunteer; case: (~~ _).
- by rewrite /handleRemoveVolunteer; case: (leaderId s == _).
- by rewrite /handleToggleSkill; case: (id \in _).
- by rewrite handleCreateTeamE; case: (validateTeam s).1.
- rewrite /handleCreateTeam_resume; case: (teamError r) => //.
  by case: (teamData r) => [[|i l]|].
Qed.

Lemma loading_off_run p es s :
  loading s = false -> loading (foldl (fun s e => (step p s e).1) s es) = false.
Proof. by elim: es s => [|e es IH] s //= off; apply/IH/loading_off. Qed.

(** X21. Once the two reads of the store have settled, with or without
    error, the spinner is gone for good: no later event sets [loading]
    again. *)
Theorem loading_ends (p : TeamBuilderProps) (es : seq Event) :
  has (fun e => if e is FetchSettled _ then true else false) es ->
  loading (run p es) = false.
Proof.
rewrite /run; elim: es initialState => [|e es IH] s //=.
case: e => [r|x|x|x|x|x|v|id|id|id||r] /=; try exact: IH.
move=> _; apply: loading_off_run.
by rewrite /fetchData_resume; case: (_ || _).
Qed.

Lemma loading_ends_witness :
  has (fun e => if e is FetchSettled _ then true else false)
    [:: ChangeTeamName "Alpha";
        FetchSettled {| volunteersData := None; volunteersError := true;
                        skillsData := None; skillsError := false |};
        ToggleSkill "CPR"] /\
  loading (run sampleProps
             [:: ChangeTeamName "Alpha";
                 FetchSettled {| volunteersData := None; volunteersError := true;
                                 skillsData := None; skillsError := false |};
                 ToggleSkill "CPR"]) = false.
Proof. by split; [| apply: loading_ends]. Defined.

(** ** Labels and badges *)

Lemma find_first_none A (test : A -> bool) (a : seq A) :
  ~~ has test a -> find_first test a = None.
Proof. by rewrite -find_first_has; case: (find_first test a). Qed.

Lemma find_first_cat A (test : A -> bool) (pre post : seq A) (x : A) :
  ~~ has test pre -> test x -> find_first test (pre ++ x :: post) = Some x.
Proof.
elim: pre => [|y pre IH] /=; first by move=> _ ->.
by rewrite negb_or => /andP [/negPf -> npre] tx; apply: IH.
Qed.

Lemma has_skillId id (S : seq Skill) :
  has (fun sk => Skill.id sk == id) S = (id \in [seq Skill.id sk | sk <- S]).
Proof. by elim: S => [|sk S IH] //=; rewrite in_cons IH eq_sym. Qed.

(** X22. The label of a skill id is never empty: it is the name of the
    first catalogue entry with that id, and "Unknown Skill" when no entry
    has the id or when that entry's name is empty. *)
Theorem getSkillName_label (s : State) (id : string) :
  [/\ getSkillName s id != EmptyString,
      id \notin [seq Skill.id sk | sk <- skills s] ->
        getSkillName s id = "Unknown Skill"%string
    & forall pre sk post,
        skills s = pre ++ sk :: post -> Skill.id sk = id ->
        id \notin [seq Skill.id sk | sk <- pre] ->
        getSkillName s id
        = if Skill.name sk == EmptyString then "Unknown Skill"%string
          else Skill.name sk].
Proof.
split.
- rewrite /getSkillName; case: (find_first _ _) => [sk|] //=.
  by rewrite /Js.truthy; case E: (Skill.name sk == EmptyString) => //=; rewrite E.
- by rewrite -has_skillId /getSkillName => /find_first_none ->.
- move=> pre sk post eqS idsk; rewrite -has_skillId /getSkillName eqS => npre.
  rewrite (find_first_cat _ npre) /=; first exact/eqP.
  by rewrite /Js.truthy; case: (Skill.name sk == EmptyString).
Qed.

(** X23. A row shows the labels of at most three skills, the first three
    in order, and the [+n] badge counts exactly the skills that are not
    shown: shown plus counted is the number of skills of the volunteer,
    and a badge never says [+0]. *)
Theorem skill_badges_count (s : State) (v : Volunteer) :
  [/\ size (skillBadges s v).1 <= 3,
      (skillBadges s v).1
      = [seq getSkillName s id | id <- take 3 (or_empty (Volunteer.skills v))],
      size (skillBadges s v).1
      + (if (skillBadges s v).2 is Some n then n else 0)
      = size (or_empty (Volunteer.skills v))
    & (skillBadges s v).2 != Some 0].
Proof.
rewrite /skillBadges; case: (Volunteer.skills v) => [a|] //=.
case: a => [|x a] //=; rewrite size_map size_take /= !ltnS.
by case: a => [|y [|z [|w a]]] //=; split.
Qed.


(** X25. In every state the component reaches, by any events, no skill id
    occurs twice in the covered list, in the missing list or across the
    two: the ids that key the badges of the coverage panel are pairwise
    distinct. *)
Theorem coverage_keys_distinct (p : TeamBuilderProps) (s : State) :
  reachable p anyEvent s ->
  exists c, calculateSkillCoverage s = Ok c /\ uniq (covered c ++ missing c).
Proof.
move=> /reachable_requiredDistinct uR.
eexists; split; first exact: calculateSkillCoverageE.
by rewrite /= (perm_uniq (permEl (perm_filterC _ _))).
Qed.

Lemma coverage_keys_distinct_witness :
  reachable sampleProps anyEvent
    (run sampleProps [:: fetched; ToggleSkill "Driving"; ToggleSkill "CPR";
                         ToggleSkill "Translation"; ClickAddToTeam vol2]) /\
  exists c,
    calculateSkillCoverage
      (run sampleProps [:: fetched; ToggleSkill "Driving"; ToggleSkill "CPR";
                           ToggleSkill "Translation"; ClickAddToTeam vol2])
    = Ok c /\ uniq (covered c ++ missing c).
Proof.
have r : reachable sampleProps anyEvent
    (run sampleProps [:: fetched; ToggleSkill "Driving"; ToggleSkill "CPR";
                         ToggleSkill "Translation"; ClickAddToTeam vol2]).
  by apply: reachable_run.
by split; [exact: r | exact: (coverage_keys_distinct r)].
Defined.
